(** * HomepageFeatures: the feature-list section of the documentation site

    A shallow embedding of [src/components/HomepageFeatures/index.tsx]:
    the [FeatureItem] record, the module-level [FeatureList], the function
    component [Feature] and the default export [HomepageFeatures], together
    with the small part of React that the component relies on (element
    trees, keys, invoking a function component on the props of its
    element). *)

From stdpp Require Import base option list strings.

Local Open Scope string_scope.
Local Set Warnings "-register-all".

(** ** React element trees *)

(** The default export of an [.svg] module: a component produced by the
    asset pipeline.  It is opaque to this module and is identified by the
    path handed to [require]. *)
Inductive SvgComponent : Type :=
| SvgAsset (path : string).

(** What JSX evaluates to.  Host elements carry their tag, their
    [className] attribute ([None] when the attribute is not written) and
    their children.  [SvgEl] and [HeadingEl] are elements of the two
    components this module imports and does not define (the icon and
    [@theme/Heading]); they stay as elements, with the props the source
    passes.  [FeatureEl] is an element of the function component [Feature]:
    its React key and the three props that the spread [{...props}] copies. *)
Inductive ReactNode : Type :=
| Text (s : string)
| Fragment (children : list ReactNode)
| Host (tag : string) (className : option string) (children : list ReactNode)
| SvgEl (component : SvgComponent) (className : string) (role : string)
| HeadingEl (as_ : string) (children : list ReactNode)
| FeatureEl (key : nat) (title : string) (Svg : SvgComponent)
            (description : ReactNode).

(** [type FeatureItem = {title; Svg; description}]. *)
Record FeatureItem : Type := mkFeatureItem {
  title : string;
  Svg : SvgComponent;
  description : ReactNode
}.

(** The children of an element (what React walks into). *)
Definition children (n : ReactNode) : list ReactNode :=
  match n with
  | Fragment cs | Host _ _ cs | HeadingEl _ cs => cs
  | Text _ | SvgEl _ _ _ | FeatureEl _ _ _ _ => []
  end.

(** The nodes of a tree in document order (a node before its children,
    children from first to last).  Block-level boxes are stacked from top
    to bottom in this order. *)
Fixpoint preorder (n : ReactNode) : list ReactNode :=
  n :: match n with
       | Fragment cs | Host _ _ cs | HeadingEl _ cs => flat_map preorder cs
       | Text _ | SvgEl _ _ _ | FeatureEl _ _ _ _ => []
       end.

(** The class tokens of a [className] attribute, and the test for one of
    them, as [element.classList.contains] does it. *)
Definition classList (className : option string) : list string :=
  match className with
  | Some c => String.words c
  | None => []
  end.

Definition hasClass (token : string) (n : ReactNode) : bool :=
  match n with
  | Host _ className _ => bool_decide (token ∈ classList className)
  | SvgEl _ className _ => bool_decide (token ∈ String.words className)
  | _ => false
  end.

(** [clsx] (npm): the truthy arguments joined by single spaces.  Only
    string arguments occur in this module. *)
Definition clsx (args : list string) : string :=
  String.concat " " (filter (λ a, a ≠ "") args).

(** [styles.module.css] as the CSS-module loader exposes it: the generated
    class name of each of the two classes that the component uses. *)
Record CssModule : Type := mkCssModule {
  features : string;
  featureSvg : string
}.

(** A sample of what the loader generates, used to run the components. *)
Definition site_styles : CssModule :=
  {| features := "features_t9lD"; featureSvg := "featureSvg_GfXr" |}.

(** ** The module-level constant *)

Definition FeatureList : list FeatureItem :=
  [ {| title := "Pixel-perfect testing made simple.";
       Svg := SvgAsset "@site/static/img/undraw_docusaurus_mountain.svg";
       description := Fragment [Text
         "Ensure your user interface looks exactly as intended across browsers and devices. With automated visual testing, spotting layout shifts and UI bugs is fast, accurate, and effortless."] |};
    {| title := "Test it. Trust it. Ship it.";
       Svg := SvgAsset "@site/static/img/undraw_docusaurus_tree.svg";
       description := Fragment [Text
         "Ensure every feature works as intended before it goes live. With fast, reliable testing, you can ship code with confidence every time"] |};
    {| title := "Your app. Every screen. Zero bugs.";
       Svg := SvgAsset "@site/static/img/undraw_docusaurus_react.svg";
       description := Fragment [Text
         "Deliver high-quality mobile apps with confidence. Mobile testing ensures smooth performance, consistent UI, and bug-free user experiences across all devices and platforms."] |} ].

(** ** Module state and the render monad *)

(** The state a rendering pass runs in: the array bound to the module's
    [FeatureList] variable, and everything else that is reachable from the
    page ([World] is left abstract). *)
Record Store (World : Type) : Type := mkStore {
  st_FeatureList : list FeatureItem;
  st_world : World
}.
Arguments mkStore {World} _ _.
Arguments st_FeatureList {World} _.
Arguments st_world {World} _.

(** A computation that may read and write the store. *)
Definition Render (World : Type) (A : Type) : Type :=
  Store World → A * Store World.

Global Instance Render_ret {World} : MRet (Render World) :=
  λ A (x : A) (s : Store World), (x, s).

Global Instance Render_bind {World} : MBind (Render World) :=
  λ A B (f : A → Render World B) (m : Render World A) (s : Store World),
    let '(a, s') := m s in f a s'.

(** Evaluating the identifier [FeatureList]. *)
Definition read_FeatureList {World} : Render World (list FeatureItem) :=
  λ s, (st_FeatureList s, s).

(** [Array.prototype.map]: the callback receives each element with its
    index, from index 0 upwards, and the results are collected in order. *)
Fixpoint Array_map_from {World A B} (callback : A → nat → Render World B)
    (k : nat) (arr : list A) : Render World (list B) :=
  match arr with
  | [] => mret []
  | x :: rest =>
      y ← callback x k;
      ys ← Array_map_from callback (S k) rest;
      mret (y :: ys)
  end.

Definition Array_map {World A B} (callback : A → nat → Render World B)
    (arr : list A) : Render World (list B) :=
  Array_map_from callback 0 arr.

(** The state of the module right after it has been loaded. *)
Definition initial_store {World} (w : World) : Store World :=
  {| st_FeatureList := FeatureList; st_world := w |}.

(** ** The components *)

Section Components.
Context {World : Type}.
Variable styles : CssModule.

(** [function Feature({title, Svg, description}: FeatureItem)]. *)
Definition Feature (props : FeatureItem) : ReactNode :=
  Host "div" (Some (clsx ["col col--4"]))
    [ Host "div" (Some "text--center")
        [ SvgEl (Svg props) (featureSvg styles) "img" ];
      Host "div" (Some "text--center padding-horiz--md")
        [ HeadingEl "h3" [Text (title props)];
          Host "p" None [description props] ] ].

(** The arrow function handed to [map]:
    [(props, idx) => <Feature key={idx} {...props} />]. *)
Definition FeatureList_callback (props : FeatureItem) (idx : nat)
    : Render World ReactNode :=
  mret (FeatureEl idx (title props) (Svg props) (description props)).

(** [export default function HomepageFeatures(): ReactNode]. *)
Definition HomepageFeatures : Render World ReactNode :=
  arr ← read_FeatureList;
  cards ← Array_map FeatureList_callback arr;
  mret (Host "section" (Some (features styles))
          [ Host "div" (Some "container")
              [ Host "div" (Some "row") cards ] ]).

(** React invoking the function component of an element on the props of
    that element (the key is not a prop).  Elements of other kinds are
    not function components of this module and are left as they are. *)
Definition invoke (el : ReactNode) : ReactNode :=
  match el with
  | FeatureEl _ t s d =>
      Feature {| title := t; Svg := s; description := d |}
  | _ => el
  end.

(** The cards of a rendered section: the children of its row, which is
    the child of its container. *)
Definition cards_of (section : ReactNode) : list ReactNode :=
  (children section ≫= children) ≫= children.

(** A whole rendering pass: [HomepageFeatures] is called, then React
    calls [Feature] for each element of the row.  The result pairs the
    section with what each of its cards displays. *)
Definition render_pass : Render World (ReactNode * list ReactNode) :=
  section ← HomepageFeatures;
  mret (section, invoke <$> cards_of section).

(** Two views used to state results: the element built for the record
    at index [idx], and the section around given row children. *)
Definition card_element (idx : nat) (props : FeatureItem) : ReactNode :=
  FeatureEl idx (title props) (Svg props) (description props).

Definition section_of (cards : list ReactNode) : ReactNode :=
  Host "section" (Some (features styles))
    [ Host "div" (Some "container") [ Host "div" (Some "row") cards ] ].

End Components.

(** The React key of an element, when it has one. *)
Definition key_of (el : ReactNode) : option nat :=
  match el with
  | FeatureEl k _ _ _ => Some k
  | _ => None
  end.

(** The props of a [Feature] element, as [element.props] holds them. *)
Definition props_of (el : ReactNode) : option FeatureItem :=
  match el with
  | FeatureEl _ t s d => Some {| title := t; Svg := s; description := d |}
  | _ => None
  end.



(** ** Running the components *)

Section Run.
Context {World : Type}.
Variable styles : CssModule.

Lemma Array_map_from_callback (k : nat) (arr : list FeatureItem)
    (s : Store World) :
  Array_map_from FeatureList_callback k arr s
  = (imap (λ i, card_element (k + i)) arr, s).
Proof.
  revert k. induction arr as [|x rest IH]; intros k; [done|].
  cbn [Array_map_from]. unfold mbind, Render_bind.
  unfold FeatureList_callback at 1. unfold mret at 1, Render_ret at 1.
  rewrite IH. unfold mret, Render_ret. cbn [imap].
  f_equal. f_equal.
  - unfold card_element. by rewrite Nat.add_0_r.
  - apply imap_ext. intros i y _. cbn. f_equal. lia.
Qed.

Lemma Array_map_callback (arr : list FeatureItem) (s : Store World) :
  Array_map FeatureList_callback arr s = (imap card_element arr, s).
Proof. unfold Array_map. by rewrite Array_map_from_callback. Qed.

Lemma HomepageFeatures_run (s : Store World) :
  HomepageFeatures styles s
  = (section_of styles (imap card_element (st_FeatureList s)), s).
Proof.
  unfold HomepageFeatures, mbind, Render_bind, read_FeatureList.
  by rewrite Array_map_callback.
Qed.

Lemma cards_of_section_of (cards : list ReactNode) :
  cards_of (section_of styles cards) = cards.
Proof. unfold cards_of, section_of. cbn. by rewrite !app_nil_r. Qed.

Lemma invoke_card_element (i : nat) (props : FeatureItem) :
  invoke styles (card_element i props) = Feature styles props.
Proof. by destruct props. Qed.

Lemma render_pass_run (s : Store World) :
  render_pass styles s
  = (section_of styles (imap card_element (st_FeatureList s)),
     Feature styles <$> st_FeatureList s, s).
Proof.
  unfold render_pass, mbind, Render_bind. rewrite HomepageFeatures_run.
  unfold mret, Render_ret. rewrite cards_of_section_of.
  do 2 f_equal. rewrite fmap_imap, <-imap_const.
  apply imap_ext. intros i x _. apply invoke_card_element.
Qed.

End Run.

(** ** Properties of the renderer *)

Section Properties.
Context {World : Type}.
Variable styles : CssModule.

Implicit Types (s : Store World) (item : FeatureItem).

Lemma keys_card_elements (items : list FeatureItem) :
  key_of <$> imap card_element items = Some <$> seq 0 (length items).
Proof.
  apply list_eq. intros i.
  rewrite !list_lookup_fmap, list_lookup_imap.
  destruct (items !! i) as [item|] eqn:Hi; cbn.
  - apply lookup_lt_Some in Hi. by rewrite lookup_seq_lt.
  - apply lookup_ge_None in Hi. by rewrite lookup_seq_ge.
Qed.

(** C1.  Called in a state whose feature list holds N records,
    [HomepageFeatures] returns the section, whose container holds the
    row, whose children are exactly N elements: one [Feature] element
    per record, carrying the fields of that record. *)
Theorem HomepageFeatures_card_count s :
  ∃ cards,
    (HomepageFeatures styles s).1
    = Host "section" (Some (features styles))
        [ Host "div" (Some "container") [ Host "div" (Some "row") cards ] ]
    ∧ length cards = length (st_FeatureList s)
    ∧ length (render_pass styles s).1.2 = length (st_FeatureList s)
    ∧ Forall2 (λ item card, ∃ k,
         card = FeatureEl k (title item) (Svg item) (description item))
       (st_FeatureList s) cards.
Proof.
  exists (imap card_element (st_FeatureList s)).
  rewrite HomepageFeatures_run, render_pass_run. cbn [fst snd].
  split; [done|]. rewrite length_imap, length_fmap.
  do 2 (split; [done|]).
  apply Forall2_same_length_lookup. split; [by rewrite length_imap|].
  intros i item card Hitem Hcard.
  rewrite list_lookup_imap, Hitem in Hcard. injection Hcard as <-.
  by exists i.
Qed.

(** C2.  When the record at index i of the feature list is [item], the
    i-th child of the row is the [Feature] element of [item], and the
    card React renders for it shows the title of [item] in its heading.
    The row children are the index-wise image of the list. *)
Theorem HomepageFeatures_order s i item :
  st_FeatureList s !! i = Some item →
  cards_of (HomepageFeatures styles s).1
  = imap (λ idx props,
            FeatureEl idx (title props) (Svg props) (description props))
      (st_FeatureList s)
  ∧ cards_of (HomepageFeatures styles s).1 !! i
    = Some (FeatureEl i (title item) (Svg item) (description item))
  ∧ ∃ c0 c1 c2 icon para,
      (render_pass styles s).1.2 !! i
      = Some (Host "div" c0
                [ Host "div" c1 [icon];
                  Host "div" c2 [HeadingEl "h3" [Text (title item)]; para] ]).
Proof.
  intros Hitem.
  rewrite HomepageFeatures_run, render_pass_run. cbn [fst snd].
  rewrite cards_of_section_of. split; [done|]. split.
  - by rewrite list_lookup_imap, Hitem.
  - rewrite list_lookup_fmap, Hitem. cbn [fmap option_fmap option_map].
    unfold Feature. eauto 10.
Qed.

(** C3.  For the built-in [FeatureList], one rendering pass yields three
    elements keyed 0, 1, 2 in the order of the list, and the three cards
    show, in that order, the three titles as [h3] headings and the
    descriptions of the three records as paragraphs. *)
Theorem HomepageFeatures_builtin (w : World) :
  ∃ d0 d1 d2 i0 i1 i2,
    description <$> FeatureList = [d0; d1; d2]
    ∧ Svg <$> FeatureList = [i0; i1; i2]
    ∧ cards_of (render_pass styles (initial_store w)).1.1
      = [ FeatureEl 0 "Pixel-perfect testing made simple." i0 d0;
          FeatureEl 1 "Test it. Trust it. Ship it." i1 d1;
          FeatureEl 2 "Your app. Every screen. Zero bugs." i2 d2 ]
    ∧ (render_pass styles (initial_store w)).1.2
      = [ Host "div" (Some "col col--4")
            [ Host "div" (Some "text--center")
                [ SvgEl i0 (featureSvg styles) "img" ];
              Host "div" (Some "text--center padding-horiz--md")
                [ HeadingEl "h3" [Text "Pixel-perfect testing made simple."];
                  Host "p" None [d0] ] ];
          Host "div" (Some "col col--4")
            [ Host "div" (Some "text--center")
                [ SvgEl i1 (featureSvg styles) "img" ];
              Host "div" (Some "text--center padding-horiz--md")
                [ HeadingEl "h3" [Text "Test it. Trust it. Ship it."];
                  Host "p" None [d1] ] ];
          Host "div" (Some "col col--4")
            [ Host "div" (Some "text--center")
                [ SvgEl i2 (featureSvg styles) "img" ];
              Host "div" (Some "text--center padding-horiz--md")
                [ HeadingEl "h3" [Text "Your app. Every screen. Zero bugs."];
                  Host "p" None [d2] ] ] ].
Proof. do 6 eexists. repeat split; reflexivity. Qed.

(** C4.  In every state the call returns: the result is the section
    around the container around the row, for some list of cards.  When
    the feature list is empty, the row has no children and the pass
    yields no card. *)
Theorem HomepageFeatures_total s :
  (∃ cards s',
      HomepageFeatures styles s
      = (Host "section" (Some (features styles))
           [ Host "div" (Some "container")
               [ Host "div" (Some "row") cards ] ], s'))
  ∧ ∀ w : World,
      render_pass styles {| st_FeatureList := []; st_world := w |}
      = (Host "section" (Some (features styles))
           [ Host "div" (Some "container") [ Host "div" (Some "row") [] ] ],
         [],
         {| st_FeatureList := []; st_world := w |}).
Proof.
  split.
  - rewrite HomepageFeatures_run. unfold section_of. eauto.
  - intros w. reflexivity.
Qed.

(** C5.  Rendering is a function of the feature list alone: two passes
    started in states that hold the same list (whatever else the states
    hold, and whatever ran before) yield the same section and the same
    cards, and so does a second pass started where the first one ended. *)
Theorem render_pass_deterministic {World' : Type} s (s' : Store World') :
  st_FeatureList s = st_FeatureList s' →
  (render_pass styles s).1 = (render_pass styles s').1
  ∧ (render_pass styles (render_pass styles s).2).1
    = (render_pass styles s).1.
Proof.
  intros Heq. rewrite !render_pass_run. cbn [fst snd].
  by rewrite Heq.
Qed.

(** C6.  The card of a record is a column holding two boxes in document
    order: the first holds the icon, the second holds the heading with
    the title and, after it, the paragraph with the description.  Both
    boxes carry the class [text--center], so the three are centred, and
    in document order the icon comes before the title, which comes
    before the description. *)
Theorem Feature_layout item :
  ∃ column iconBox textBox icon heading para,
    Feature styles item = column
    ∧ children column = [iconBox; textBox]
    ∧ children iconBox = [icon]
    ∧ children textBox = [heading; para]
    ∧ icon = SvgEl (Svg item) (featureSvg styles) "img"
    ∧ heading = HeadingEl "h3" [Text (title item)]
    ∧ para = Host "p" None [description item]
    ∧ hasClass "text--center" iconBox = true
    ∧ hasClass "text--center" textBox = true
    ∧ preorder column
      = column :: iconBox :: icon :: textBox :: heading
          :: Text (title item) :: para :: preorder (description item).
Proof.
  unfold Feature. do 6 eexists.
  split; [reflexivity|]. repeat (split; [reflexivity|]).
  cbn. by rewrite !app_nil_r.
Qed.

(** C7.  A rendering pass leaves the state as it found it: the feature
    list and everything else are the same after the pass as before, the
    module's built-in list included; and what the pass returns does not
    depend on any state besides the feature list. *)
Theorem render_pass_frame s :
  (render_pass styles s).2 = s
  ∧ (HomepageFeatures styles s).2 = s
  ∧ st_FeatureList (render_pass styles s).2 = st_FeatureList s
  ∧ (∀ w : World,
       st_FeatureList (render_pass styles (initial_store w)).2 = FeatureList)
  ∧ ∀ w : World,
      (render_pass styles {| st_FeatureList := st_FeatureList s;
                             st_world := w |}).1
      = (render_pass styles s).1.
Proof.
  rewrite render_pass_run, HomepageFeatures_run. cbn [fst snd].
  repeat split; try done.
  intros w. by rewrite render_pass_run.
Qed.

(** C8.  Every card of a rendering pass, whatever its position and its
    record, is a [div] whose class attribute is ['col col--4']: the
    tokens [col] and [col--4]. *)
Theorem cards_column_class s i card :
  (render_pass styles s).1.2 !! i = Some card →
  (∃ cs, card = Host "div" (Some "col col--4") cs)
  ∧ hasClass "col" card = true
  ∧ hasClass "col--4" card = true.
Proof.
  rewrite render_pass_run. cbn [fst snd].
  rewrite list_lookup_fmap. intros Hcard.
  destruct (st_FeatureList s !! i) as [item|]; [|done].
  injection Hcard as <-. unfold Feature. split; [by eexists|done].
Qed.

(** C9.  The keys of the row children are 0, 1, ..., N-1 in this order
    (the i-th child has key i), hence no two children share a key. *)
Theorem HomepageFeatures_keys s :
  key_of <$> cards_of (HomepageFeatures styles s).1
  = Some <$> seq 0 (length (st_FeatureList s))
  ∧ NoDup (key_of <$> cards_of (HomepageFeatures styles s).1).
Proof.
  rewrite HomepageFeatures_run. cbn [fst]. rewrite cards_of_section_of.
  rewrite keys_card_elements. split; [done|].
  apply NoDup_fmap_2; [apply _|apply NoDup_seq].
Qed.

(** C10.  In the card of every record the icon element gets the class
    [styles.featureSvg] and the role [img], and the title is the child
    of a heading with [as="h3"]; the cards of a rendering pass are the
    cards of the records. *)
Theorem Feature_icon_and_heading item :
  (∃ c0 c1 c2 para,
      Feature styles item
      = Host "div" c0
          [ Host "div" c1 [ SvgEl (Svg item) (featureSvg styles) "img" ];
            Host "div" c2 [ HeadingEl "h3" [Text (title item)]; para ] ])
  ∧ ∀ s, (render_pass styles s).1.2 = Feature styles <$> st_FeatureList s.
Proof.
  split.
  - unfold Feature. eauto 10.
  - intros s. by rewrite render_pass_run.
Qed.

End Properties.

(** ** The properties at concrete inputs *)

Lemma HomepageFeatures_order_witness :
  st_FeatureList (initial_store tt) !! 1
  = Some {| title := "Test it. Trust it. Ship it.";
            Svg := SvgAsset "@site/static/img/undraw_docusaurus_tree.svg";
            description := Fragment [Text
              "Ensure every feature works as intended before it goes live. With fast, reliable testing, you can ship code with confidence every time"] |}
  ∧ ∃ c0 c1 c2 icon para,
      (render_pass site_styles (initial_store tt)).1.2 !! 1
      = Some (Host "div" c0
                [ Host "div" c1 [icon];
                  Host "div" c2
                    [ HeadingEl "h3" [Text "Test it. Trust it. Ship it."];
                      para ] ]).
Proof.
  split; [reflexivity|].
  exact (proj2 (proj2 (HomepageFeatures_order site_styles
                         (initial_store tt) 1 _ eq_refl))).
Defined.

Lemma render_pass_deterministic_witness :
  st_FeatureList (initial_store tt) = st_FeatureList (initial_store 7)
  ∧ (render_pass site_styles (initial_store tt)).1
    = (render_pass site_styles (initial_store 7)).1.
Proof.
  split; [reflexivity|].
  exact (proj1 (render_pass_deterministic site_styles
                  (initial_store tt) (initial_store 7) eq_refl)).
Defined.

Lemma cards_column_class_witness :
  (render_pass site_styles (initial_store tt)).1.2 !! 2
  = Some (Feature site_styles
            {| title := "Your app. Every screen. Zero bugs.";
               Svg := SvgAsset "@site/static/img/undraw_docusaurus_react.svg";
               description := Fragment [Text
                 "Deliver high-quality mobile apps with confidence. Mobile testing ensures smooth performance, consistent UI, and bug-free user experiences across all devices and platforms."] |})
  ∧ hasClass "col--4"
      (Feature site_styles
         {| title := "Your app. Every screen. Zero bugs.";
            Svg := SvgAsset "@site/static/img/undraw_docusaurus_react.svg";
            description := Fragment [Text
              "Deliver high-quality mobile apps with confidence. Mobile testing ensures smooth performance, consistent UI, and bug-free user experiences across all devices and platforms."] |})
    = true.
Proof.
  split; [reflexivity|].
  exact (proj2 (proj2 (cards_column_class site_styles
                         (initial_store tt) 2 _ eq_refl))).
Defined.

(** ** How the renderer behaves when the feature list changes *)

Section Changes.
Context {World : Type}.
Variable styles : CssModule.

Implicit Types (l : list FeatureItem) (w : World).

Lemma props_of_card_elements (k : nat) l :
  mapM props_of (imap (λ i, card_element (k + i)) l) = Some l.
Proof.
  apply mapM_Some_2, Forall2_same_length_lookup.
  split; [by rewrite length_imap|].
  intros i el item Hel Hitem.
  rewrite list_lookup_imap, Hitem in Hel. injection Hel as <-.
  by destruct item.
Qed.


Global Instance Feature_inj : Inj (=) (=) (Feature styles).
Proof.
  intros [t1 i1 d1] [t2 i2 d2]. unfold Feature. cbn.
  intros H. by simplify_eq.
Qed.

(** X1.  Records added at the end of the feature list leave what was
    rendered before untouched: the row starts with the same elements,
    under the same keys, followed by the elements of the new records with
    keys continuing from the old length; the displayed cards are those of
    the first list followed by those of the second. *)
Theorem HomepageFeatures_append l1 l2 w :
  cards_of (HomepageFeatures styles (mkStore (l1 ++ l2) w)).1
  = (cards_of (HomepageFeatures styles (mkStore l1 w)).1
     ++ imap (λ i item, FeatureEl (length l1 + i) (title item) (Svg item)
                          (description item)) l2)%list
  ∧ (render_pass styles (mkStore (l1 ++ l2) w)).1.2
    = ((render_pass styles (mkStore l1 w)).1.2
       ++ (render_pass styles (mkStore l2 w)).1.2)%list.
Proof.
  rewrite !HomepageFeatures_run, !render_pass_run. cbn [fst snd st_FeatureList].
  rewrite !cards_of_section_of. split.
  - by rewrite imap_app.
  - by rewrite fmap_app.
Qed.

(** X2.  The feature list can be read back from what [HomepageFeatures]
    returns: every child of the row is a [Feature] element, and the props
    of the children, in order, are the records of the list. *)
Theorem HomepageFeatures_props_roundtrip (s : Store World) :
  mapM props_of (cards_of (HomepageFeatures styles s).1)
  = Some (st_FeatureList s).
Proof.
  rewrite HomepageFeatures_run. cbn [fst]. rewrite cards_of_section_of.
  apply (props_of_card_elements 0).
Qed.



(** X5.  Replacing the record at a position of the feature list changes
    the row child and the displayed card at that position only; the new
    child has the key of the old one. *)
Theorem HomepageFeatures_replace l i (item : FeatureItem) w :
  i < length l →
  cards_of (HomepageFeatures styles (mkStore (<[i:=item]> l) w)).1
  = <[i:=FeatureEl i (title item) (Svg item) (description item)]>
      (cards_of (HomepageFeatures styles (mkStore l w)).1)
  ∧ (render_pass styles (mkStore (<[i:=item]> l) w)).1.2
    = <[i:=Feature styles item]> (render_pass styles (mkStore l w)).1.2.
Proof.
  intros Hi.
  rewrite !HomepageFeatures_run, !render_pass_run. cbn [fst snd st_FeatureList].
  rewrite !cards_of_section_of. split; [|by rewrite list_fmap_insert].
  apply list_eq. intros j. rewrite list_lookup_imap.
  destruct (decide (i = j)) as [<-|Hne].
  - rewrite !list_lookup_insert_eq by (by rewrite ?length_imap). done.
  - rewrite !list_lookup_insert_ne by done. by rewrite list_lookup_imap.
Qed.

(** X6.  Keys go with positions, not with records: when the feature list
    is reordered, the displayed cards are reordered with it, while the
    sequence of keys of the row children stays the same. *)
Theorem HomepageFeatures_reorder l1 l2 w :
  l1 ≡ₚ l2 →
  (render_pass styles (mkStore l1 w)).1.2
  ≡ₚ (render_pass styles (mkStore l2 w)).1.2
  ∧ key_of <$> cards_of (HomepageFeatures styles (mkStore l1 w)).1
    = key_of <$> cards_of (HomepageFeatures styles (mkStore l2 w)).1.
Proof.
  intros Hperm.
  rewrite !HomepageFeatures_run, !render_pass_run. cbn [fst snd st_FeatureList].
  rewrite !cards_of_section_of, !keys_card_elements. split.
  - by rewrite Hperm.
  - by rewrite (Permutation_length Hperm).
Qed.

End Changes.



Lemma HomepageFeatures_replace_witness :
  1 < length FeatureList
  ∧ (render_pass site_styles
       (mkStore (<[1:=mkFeatureItem "Fast." (SvgAsset "fast.svg") (Text "Quick runs.")]>
                   FeatureList) tt)).1.2
    = <[1:=Feature site_styles
             (mkFeatureItem "Fast." (SvgAsset "fast.svg") (Text "Quick runs."))]>
        (render_pass site_styles (mkStore FeatureList tt)).1.2.
Proof.
  assert (H : 1 < length FeatureList) by (cbn; lia).
  split; [exact H|].
  exact (proj2 (HomepageFeatures_replace site_styles FeatureList 1
                  (mkFeatureItem "Fast." (SvgAsset "fast.svg") (Text "Quick runs."))
                  tt H)).
Defined.

Lemma HomepageFeatures_reorder_witness :
  reverse FeatureList ≡ₚ FeatureList
  ∧ key_of <$> cards_of
      (HomepageFeatures site_styles (mkStore (reverse FeatureList) tt)).1
    = key_of <$> cards_of
        (HomepageFeatures site_styles (mkStore FeatureList tt)).1.
Proof.
  split; [apply reverse_Permutation|].
  exact (proj2 (HomepageFeatures_reorder site_styles (reverse FeatureList)
                  FeatureList tt (reverse_Permutation FeatureList))).
Defined.
